(** * gensim.sklearn_api.tfidf: the scikit-learn wrapper of the tf-idf model

    A shallow embedding of [src/gensim/sklearn_api/tfidf.py].  The class
    [TfIdfTransformer] keeps one mutable attribute, [gensim_model], next to
    the eight keyword arguments of its constructor; [fit] builds a
    [TfidfModel] and stores it, [transform] weighs documents with the stored
    model.  The methods are written in a state-and-exception monad over the
    attributes of [self].

    [gensim.models.TfidfModel] is not part of the sources: the wrapper is
    verified against an interface ([TfidfModelImpl]), and an instance of that
    interface is modelled from the specification (module [TfidfModelSpec]). *)

From Stdlib Require Import ZArith List String Ascii Bool Lia.
From Stdlib Require Import Floats.PrimFloat Floats.SpecFloat Floats.FloatOps.
From Stdlib Require Import Numbers.Cyclic.Int63.Uint63.
From stdpp Require Import base option list gmap.
Import ListNotations.

Set Default Proof Using "Type".
Set Warnings "-register-all,-inexact-float".
#[local] Open Scope Z_scope.

(** ** Python values and exceptions *)

Module Py.

(** The fragment of Python objects that bag-of-words data is made of:
    [None], integers, floats (binary64), tuples and lists. *)
Inductive value : Type :=
| VNone
| VInt (z : Z)
| VFloat (f : float)
| VTuple (items : list value)
| VList (items : list value).

(** The exceptions the wrapper and the model raise.  [IndexError],
    [TypeError] and [OverflowError] are Python's own; [NotFittedError] is
    scikit-learn's; [InvalidSchemeError] and [EmptyCorpusError] are the names
    the specification gives to the model's errors. *)
Inductive exn : Type :=
| NotFittedError
| IndexError
| TypeError
| InvalidSchemeError
| EmptyCorpusError
| OverflowError.

(** The outcome of an expression: a value or a raised exception. *)
Inductive result (A : Type) : Type :=
| Ok (a : A)
| Raise (e : exn).
Arguments Ok {A} a.
Arguments Raise {A} e.

Definition rbind {A B} (r : result A) (k : A -> result B) : result B :=
  match r with
  | Ok a => k a
  | Raise e => Raise e
  end.

Definition rmap {A B} (f : A -> B) (r : result A) : result B :=
  rbind r (fun a => Ok (f a)).

(** A list comprehension [[f x for x in l]]: the elements are evaluated in
    order and the first exception ends the comprehension. *)
Fixpoint comprehension {A B} (f : A -> result B) (l : list A) : result (list B) :=
  match l with
  | [] => Ok []
  | x :: rest =>
      rbind (f x) (fun y => rbind (comprehension f rest) (fun ys => Ok (y :: ys)))
  end.

(** [v[0]]: sequences are indexed, an empty sequence raises [IndexError],
    the other objects of the fragment are not subscriptable. *)
Definition subscript0 (v : value) : result value :=
  match v with
  | VList (x :: _) | VTuple (x :: _) => Ok x
  | VList [] | VTuple [] => Raise IndexError
  | VNone | VInt _ | VFloat _ => Raise TypeError
  end.

(** [isinstance(v, tuple)]. *)
Definition isinstance_tuple (v : value) : bool :=
  match v with
  | VTuple _ => true
  | _ => false
  end.

(** [iter(v)], all at once: the elements of a sequence; the other objects
    of the fragment are not iterable. *)
Definition iterate (v : value) : result (list value) :=
  match v with
  | VList l | VTuple l => Ok l
  | VNone | VInt _ | VFloat _ => Raise TypeError
  end.

(** The two call shapes of [transform], told apart the way the method does:
    by whether the first element of the input is a tuple. *)
Inductive shape : Type :=
| SingleDocument
| Corpus.

Definition shape_of (v : value) : result shape :=
  rmap (fun first => if isinstance_tuple first then SingleDocument else Corpus)
       (subscript0 v).

End Py.
Export Py.

(** ** The interface of [gensim.models.TfidfModel] *)

(** A Python callable passed as a keyword argument, known by its qualified
    name (the wrapper only stores it and hands it on). *)
Inductive callable : Type :=
| Callable (qualname : string).

(** [normalize]: a boolean, or the caller's own function. *)
Inductive normalize_arg : Type :=
| NormalizeBool (b : bool)
| NormalizeWith (f : callable).

(** A [gensim.corpora.Dictionary] as far as the model reads it: the number of
    documents it was built from and the document frequency of each term. *)
Record Dictionary : Type := mkDictionary {
  num_docs : Z;
  dfs : gmap Z Z
}.

(** The keyword arguments [fit] hands to the constructor of [TfidfModel]
    besides the corpus. *)
Record kwargs : Type := mkKwargs {
  kw_id2word : option (gmap Z string);
  kw_dictionary : option Dictionary;
  kw_wlocal : callable;
  kw_wglobal : callable;
  kw_normalize : normalize_arg;
  kw_smartirs : string;
  kw_pivot : option float;
  kw_slope : float
}.

(** Modelled from the spec: [gensim.models.TfidfModel] is missing from the
    sources, and the wrapper takes it as a parameter: its constructor, which
    may raise, and [model[doc]].  By section 5 the statistics of a fitted
    model are never mutated after the fit, so indexing is a function of the
    model and the document. *)
Class TfidfModelImpl : Type := {
  model : Type;
  TfidfModel : value -> kwargs -> result model;
  model_getitem : model -> value -> result value
}.

(** ** The wrapper class [TfIdfTransformer] *)

Section Wrapper.
Context `{Impl : TfidfModelImpl}.

(** The attributes of an instance, as [__init__] sets them. *)
Record TfIdfTransformer : Type := mkTfIdfTransformer {
  gensim_model : option model;
  id2word : option (gmap Z string);
  dictionary : option Dictionary;
  wlocal : callable;
  wglobal : callable;
  normalize : normalize_arg;
  smartirs : string;
  slope : float;
  pivot : option float
}.

(** [__init__]: the model is absent, the arguments are stored. *)
Definition init (kw : kwargs) : TfIdfTransformer :=
  {| gensim_model := None;
     id2word := kw_id2word kw;
     dictionary := kw_dictionary kw;
     wlocal := kw_wlocal kw;
     wglobal := kw_wglobal kw;
     normalize := kw_normalize kw;
     smartirs := kw_smartirs kw;
     slope := kw_slope kw;
     pivot := kw_pivot kw |}.

(** The defaults of [__init__]'s signature. *)
Definition default_kwargs : kwargs :=
  {| kw_id2word := None;
     kw_dictionary := None;
     kw_wlocal := Callable "gensim.utils.identity";
     kw_wglobal := Callable "gensim.models.tfidfmodel.df2idf";
     kw_normalize := NormalizeBool true;
     kw_smartirs := "nfc";
     kw_pivot := None;
     kw_slope := 0.65%float |}.

(** A method body: it reads and writes the attributes of [self] and returns
    or raises.  The attributes are as the body left them in both cases. *)
Definition method (A : Type) : Type :=
  TfIdfTransformer -> result A * TfIdfTransformer.

Definition ret {A} (a : A) : method A := fun self => (Ok a, self).

Definition raise {A} (e : exn) : method A := fun self => (Raise e, self).

Definition bind {A B} (c : method A) (k : A -> method B) : method B :=
  fun self =>
    match c self with
    | (Ok a, self') => k a self'
    | (Raise e, self') => (Raise e, self')
    end.

(** Evaluating an expression that does not touch [self]. *)
Definition eval {A} (r : result A) : method A := fun self => (r, self).

(** [self.gensim_model] *)
Definition get_gensim_model : method (option model) :=
  fun self => (Ok (gensim_model self), self).

(** The object after the assignment [self.gensim_model = m]. *)
Definition store_gensim_model (m : option model) (self : TfIdfTransformer)
  : TfIdfTransformer :=
  {| gensim_model := m;
     id2word := id2word self;
     dictionary := dictionary self;
     wlocal := wlocal self;
     wglobal := wglobal self;
     normalize := normalize self;
     smartirs := smartirs self;
     slope := slope self;
     pivot := pivot self |}.

(** [self.gensim_model = m] *)
Definition set_gensim_model (m : option model) : method unit :=
  fun self => (Ok tt, store_gensim_model m self).

(** Reading all of [self]: the object a method returns as [self]. *)
Definition get_self : method TfIdfTransformer := fun self => (Ok self, self).

Notation "'let*' x ':=' c 'in' k" := (bind c (fun x => k))
  (at level 10, x name, c at level 100, k at level 200).

(** The keyword arguments of the constructor call in [fit], read off [self]. *)
Definition fit_kwargs (self : TfIdfTransformer) : kwargs :=
  {| kw_id2word := id2word self;
     kw_dictionary := dictionary self;
     kw_wlocal := wlocal self;
     kw_wglobal := wglobal self;
     kw_normalize := normalize self;
     kw_smartirs := smartirs self;
     kw_pivot := pivot self;
     kw_slope := slope self |}.

(** [fit(self, X, y=None)]: the right-hand side of the assignment is
    evaluated first; when the constructor raises, nothing is assigned. *)
Definition fit (X : value) (y : value) : method TfIdfTransformer :=
  let* self := get_self in
  let* m := eval (TfidfModel X (fit_kwargs self)) in
  let* _ := set_gensim_model (Some m) in
  get_self.

(** [transform(self, docs)]. *)
Definition transform (docs : value) : method value :=
  let* gm := get_gensim_model in
  match gm with
  | None => raise NotFittedError
  | Some m =>
      (* Is the input a single document? *)
      let* first := eval (subscript0 docs) in
      let docs := if isinstance_tuple first then VList [docs] else docs in
      let* items := eval (iterate docs) in
      let* out := eval (comprehension (model_getitem m) items) in
      ret (VList out)
  end.

(** The engine is fitted when it holds a model. *)
Definition is_fitted (self : TfIdfTransformer) : bool :=
  match gensim_model self with
  | Some _ => true
  | None => false
  end.

(** ** Sequences of calls *)

(** A call of one of the two methods on a transformer. *)
Inductive call : Type :=
| CallFit (X y : value)
| CallTransform (docs : value).

(** The transformer after a call, whether the call returned or raised. *)
Definition after (c : call) (self : TfIdfTransformer) : TfIdfTransformer :=
  match c with
  | CallFit X y => snd (fit X y self)
  | CallTransform docs => snd (transform docs self)
  end.

(** The transformer after a sequence of calls, the first call first. *)
Definition after_all (cs : list call) (self : TfIdfTransformer)
  : TfIdfTransformer :=
  fold_left (fun s c => after c s) cs self.

(** The model the constructor builds, under the arguments [kw], for the
    last call of [fit] in [cs] for which it returns; [gm] when it returns
    for none of them. *)
Definition last_fitted (kw : kwargs) (cs : list call) (gm : option model)
  : option model :=
  fold_left
    (fun gm c =>
       match c with
       | CallFit X _ =>
           match TfidfModel X kw with
           | Ok m => Some m
           | Raise _ => gm
           end
       | CallTransform _ => gm
       end) cs gm.

End Wrapper.

(** ** The model class, from the specification *)

Module TfidfModelSpec.

(** Modelled from the spec: [gensim.models.TfidfModel] is missing from the
    sources; section 4.1 names the codes of the three positions of a SMART
    mnemonic. *)
Inductive local_code : Type :=
| Binary | RawTf | Augmented | LogTf | DoubleLog | LogAverage.

Inductive global_code : Type :=
| NoGlobal | Idf | ZeroCorrectedIdf | ProbabilisticIdf.

Inductive norm_code : Type :=
| NoNorm | Cosine | PivotedUnique | PivotedLength.

(** Modelled from the spec: the scheme of section 3, the three selectors, the
    override letter of the fourth position and the raw mnemonic. *)
Record Scheme : Type := mkScheme {
  local_fn : local_code;
  global_fn : global_code;
  norm_fn : norm_code;
  length_fn : local_code;
  mnemonic : string
}.

(** Modelled from the spec: position 1 of section 4.1,
    b, n/t, a, l, d, L. *)
Definition local_of_letter (c : ascii) : option local_code :=
  match c with
  | "b"%char => Some Binary
  | "n"%char | "t"%char => Some RawTf
  | "a"%char => Some Augmented
  | "l"%char => Some LogTf
  | "d"%char => Some DoubleLog
  | "L"%char => Some LogAverage
  | _ => None
  end.

(** Modelled from the spec: position 2 of section 4.1, x/n, f, t, p. *)
Definition global_of_letter (c : ascii) : option global_code :=
  match c with
  | "x"%char | "n"%char => Some NoGlobal
  | "f"%char => Some Idf
  | "t"%char => Some ZeroCorrectedIdf
  | "p"%char => Some ProbabilisticIdf
  | _ => None
  end.

(** Modelled from the spec: position 3 of section 4.1, x/n, c, u, b. *)
Definition norm_of_letter (c : ascii) : option norm_code :=
  match c with
  | "x"%char | "n"%char => Some NoNorm
  | "c"%char => Some Cosine
  | "u"%char => Some PivotedUnique
  | "b"%char => Some PivotedLength
  | _ => None
  end.

(** Modelled from the spec: [resolve] of section 4.1.  A mnemonic has three
    or four characters, each a code of its position; the fourth has the
    codes of the first, overrides the length function when the normalization
    is u, and is n when absent. *)
Definition resolve (s : string) : result Scheme :=
  match list_ascii_of_string s with
  | [c1; c2; c3] =>
      match local_of_letter c1, global_of_letter c2, norm_of_letter c3 with
      | Some l, Some g, Some n => Ok (mkScheme l g n RawTf s)
      | _, _, _ => Raise InvalidSchemeError
      end
  | [c1; c2; c3; c4] =>
      match local_of_letter c1, global_of_letter c2, norm_of_letter c3,
            local_of_letter c4 with
      | Some l, Some g, Some n, Some o =>
          Ok (mkScheme l g n
                (match n with PivotedUnique => o | _ => RawTf end) s)
      | _, _, _, _ => Raise InvalidSchemeError
      end
  | _ => Raise InvalidSchemeError
  end.

(** *** Numbers *)

(** A Python integer as a float: the nearest binary64 number, ties to even,
    and an infinity for an integer beyond the range of binary64. *)
Definition float_of_Z (z : Z) : float :=
  SF2Prim (binary_normalize prec emax z 0 false).

Fixpoint atanh_terms (n : nat) (k z2 zp : float) : float :=
  match n with
  | O => 0%float
  | S n' => (zp / k + atanh_terms n' (k + 2) z2 (zp * z2))%float
  end.

(** Modelled from the spec: the [log] of section 4.2, the natural logarithm
    on binary64.  The argument is split into [m * 2^e] with [m] between
    [sqrt 1/2] and [sqrt 2], and [ln m] is summed as [2 atanh ((m-1)/(m+1))]. *)
Definition ln (x : float) : float :=
  if PrimFloat.is_nan x then PrimFloat.nan
  else if (x <? 0)%float then PrimFloat.nan
  else if (x =? 0)%float then PrimFloat.neg_infinity
  else if (x =? PrimFloat.infinity)%float then PrimFloat.infinity
  else
    let (m, e) := PrimFloat.frshiftexp x in
    let e := Uint63.to_Z e - 2101 in
    let (m, e) :=
      if (m <? 0x1.6a09e667f3bcdp-1)%float then ((m * 2)%float, e - 1) else (m, e) in
    let z := ((m - 1) / (m + 1))%float in
    (float_of_Z e * 0x1.62e42fefa39efp-1 + 2 * atanh_terms 14 1 (z * z) z)%float.

Definition fmax (a b : float) : float := if (a <? b)%float then b else a.

Definition fsum (l : list float) : float :=
  fold_left PrimFloat.add l 0%float.

(** *** Sparse vectors *)

(** Modelled from the spec: the sparse vector of section 3, pairs of a term id
    and a value. *)
Definition sparse : Type := list (Z * float).

(** Modelled from the spec: reading a document or a corpus off a Python
    object.  An entry is a tuple of a term id and an integer or float value;
    the specification types the inputs and names no error for another
    object, which is rejected here with [TypeError].  An integer value is
    converted as Python's [float] does, which raises [OverflowError] for an
    integer beyond the range of binary64. *)
Definition pair_of_value (v : value) : result (Z * float) :=
  match v with
  | VTuple [VInt t; VInt n] =>
      let f := float_of_Z n in
      if PrimFloat.is_infinity f then Raise OverflowError else Ok (t, f)
  | VTuple [VInt t; VFloat f] => Ok (t, f)
  | _ => Raise TypeError
  end.

Definition document_of_value (v : value) : result sparse :=
  rbind (iterate v) (comprehension pair_of_value).

Definition corpus_of_value (v : value) : result (list sparse) :=
  rbind (iterate v) (comprehension document_of_value).

Definition value_of_document (d : sparse) : value :=
  VList (map (fun p => VTuple [VInt (fst p); VFloat (snd p)]) d).

(** *** Fitting: section 4.3 *)

(** Modelled from the spec: the statistics of section 3. *)
Record CorpusStatistics : Type := mkStatistics {
  total_docs : Z;
  doc_freq : gmap Z Z;
  idf_weights : option (gmap Z float);
  fitted_pivot : option float
}.

(** Modelled from the spec: one document adds one to the frequency of each
    term it holds, however often the term occurs in it. *)
Definition count_document (df : gmap Z Z) (d : sparse) : gmap Z Z :=
  fold_left (fun acc t => <[t := default 0 (acc !! t) + 1]> acc)
            (remove_dups (map fst d)) df.

Definition count_corpus (c : list sparse) : Z * gmap Z Z :=
  (Z.of_nat (length c), fold_left count_document c ∅).

(** Modelled from the spec: the global weights of sections 4.1 and 4.2.  No
    global weighting is the constant 1; an idf variant weighs a term of
    document frequency 0 as 0, and the probabilistic idf is clipped at 0. *)
Definition global_weight (g : global_code) (n df : Z) : float :=
  match g with
  | NoGlobal => 1%float
  | Idf =>
      if df =? 0 then 0%float else ln (float_of_Z n / float_of_Z df)
  | ZeroCorrectedIdf =>
      if df =? 0 then 0%float else ln (float_of_Z (n + 1) / float_of_Z df)
  | ProbabilisticIdf =>
      if df =? 0 then 0%float
      else fmax 0 (ln (float_of_Z (n - df) / float_of_Z df))
  end.

Definition is_pivoted (n : norm_code) : bool :=
  match n with
  | PivotedUnique | PivotedLength => true
  | NoNorm | Cosine => false
  end.

(** Modelled from the spec: the length of a document that pivoted
    normalization measures, the count of distinct terms for u and the count
    of tokens for b (the sum of the term frequencies).  Section 4.3 gives no
    formula for a weighting of these counts; they are taken as they are. *)
Definition doc_length (n : norm_code) (d : sparse) : float :=
  match n with
  | PivotedLength => fsum (map snd d)
  | _ => float_of_Z (Z.of_nat (length (remove_dups (map fst d))))
  end.

(** Modelled from the spec: the pivot of section 4.3.  It is unused without
    pivoted normalization, the explicit one when given, and otherwise the
    mean length of the documents of the corpus, which an empty corpus does
    not have. *)
Definition fit_pivot (n : norm_code) (pivot : option float)
    (corpus : result (list sparse)) : result (option float) :=
  if is_pivoted n then
    match pivot with
    | Some p => Ok (Some p)
    | None =>
        rbind corpus (fun c =>
          match c with
          | [] => Raise EmptyCorpusError
          | _ :: _ =>
              Ok (Some (fsum (map (doc_length n) c)
                        / float_of_Z (Z.of_nat (length c)))%float)
          end)
    end
  else Ok None.

(** Modelled from the spec: [fit] of section 4.3.  A precomputed table of
    document frequencies stands for the scan of the corpus. *)
Definition fit_statistics (X : value) (dict : option Dictionary)
    (s : Scheme) (pivot : option float) : result CorpusStatistics :=
  let corpus := corpus_of_value X in
  rbind (match dict with
         | Some d => Ok (num_docs d, dfs d)
         | None => rmap count_corpus corpus
         end) (fun counts =>
  let (n, df) := counts in
  let idf :=
    match global_fn s with
    | NoGlobal => None
    | g => Some (global_weight g n <$> df)
    end in
  rbind (fit_pivot (norm_fn s) pivot corpus) (fun p =>
  Ok (mkStatistics n df idf p))).

(** Modelled from the spec: the fitted state of section 3. *)
Record Model : Type := mkModel {
  scheme : Scheme;
  statistics : CorpusStatistics;
  model_slope : float
}.

(** Modelled from the spec: the constructor resolves the mnemonic, then fits
    the statistics (the data flow of section 2). *)
Definition new (X : value) (kw : kwargs) : result Model :=
  rbind (resolve (kw_smartirs kw)) (fun s =>
  rbind (fit_statistics X (kw_dictionary kw) s (kw_pivot kw)) (fun st =>
  Ok (mkModel s st (kw_slope kw)))).

(** *** Weighing a document: sections 4.2 and 4.4 *)

(** Modelled from the spec: the local weights of sections 4.1 and 4.2, given
    the largest and the mean term frequency of the document. *)
Definition local_weight (l : local_code) (max_tf avg_tf tf : float) : float :=
  match l with
  | Binary => if (0 <? tf)%float then 1%float else 0%float
  | RawTf => tf
  | Augmented => (0.5 + 0.5 * tf / max_tf)%float
  | LogTf => if (0 <? tf)%float then (ln tf + 1)%float else 0%float
  | DoubleLog => (1 + ln (1 + ln tf))%float
  | LogAverage =>
      if (0 <? tf)%float then ((1 + ln tf) / (1 + ln avg_tf))%float else 0%float
  end.

Definition apply_local (l : local_code) (d : sparse) : sparse :=
  let tfs := map snd d in
  let max_tf := fold_left fmax tfs 0%float in
  let avg_tf := (fsum tfs / float_of_Z (Z.of_nat (length tfs)))%float in
  map (fun p => (fst p, local_weight l max_tf avg_tf (snd p))) d.

(** Modelled from the spec: step 2 of section 4.4, the precomputed weight of
    the term, 0 for a term unseen during the fit; a scheme without global
    weighting has no table and multiplies by the constant 1. *)
Definition apply_global (idf : option (gmap Z float)) (d : sparse) : sparse :=
  match idf with
  | None => d
  | Some table =>
      map (fun p => (fst p, (snd p * default 0%float (table !! fst p))%float)) d
  end.

Definition scale (k : float) (d : sparse) : sparse :=
  map (fun p => (fst p, (snd p * k)%float)) d.

(** Modelled from the spec: the normalizations of section 4.2.  Cosine leaves
    an all-zero vector as it is; the pivoted ones rescale by
    [1 / ((1-s) p + s L)], where [L] is the length of the document before
    weighting. *)
Definition apply_norm (n : norm_code) (p : option float) (s : float)
    (L : float) (d : sparse) : sparse :=
  match n with
  | NoNorm => d
  | Cosine =>
      let len := PrimFloat.sqrt (fsum (map (fun q => (snd q * snd q)%float) d)) in
      if (len =? 0)%float then d else scale (1 / len)%float d
  | PivotedUnique | PivotedLength =>
      match p with
      | Some p => scale (1 / ((1 - s) * p + s * L))%float d
      | None => d
      end
  end.

Definition drop_zeros (d : sparse) : sparse :=
  filter (fun p => negb (snd p =? 0)%float) d.

Fixpoint insert_by_id (p : Z * float) (d : sparse) : sparse :=
  match d with
  | [] => [p]
  | q :: rest => if fst p <? fst q then p :: q :: rest else q :: insert_by_id p rest
  end.

(** Ascending term ids; entries of one id keep their order. *)
Definition sort_by_id (d : sparse) : sparse := fold_right insert_by_id [] d.

(** Modelled from the spec: [transform] of section 4.4 on one document. *)
Definition weigh (m : Model) (d : sparse) : sparse :=
  let s := scheme m in
  let st := statistics m in
  let w := apply_global (idf_weights st) (apply_local (local_fn s) d) in
  let w := apply_norm (norm_fn s) (fitted_pivot st) (model_slope m)
             (doc_length (norm_fn s) d) w in
  sort_by_id (drop_zeros w).

(** Modelled from the spec: [model[doc]], the weighted document, for a
    document in bag-of-words format. *)
Definition getitem (m : Model) (doc : value) : result value :=
  rmap (fun d => value_of_document (weigh m d)) (document_of_value doc).

#[export] Instance impl : TfidfModelImpl :=
  {| model := Model; TfidfModel := new; model_getitem := getitem |}.

End TfidfModelSpec.

(** ** The mnemonics the specification calls legal *)

(** Modelled from the spec: the legal codes of each position (section 4.1),
    positions counted from 0; the fourth character has the codes of the
    first. *)
Definition legal_codes (position : nat) : list ascii :=
  match position with
  | 0%nat | 3%nat => list_ascii_of_string "bntaldL"
  | 1%nat => list_ascii_of_string "xnftp"
  | 2%nat => list_ascii_of_string "xncub"
  | _ => []
  end.

Definition recognized (position : nat) (c : ascii) : bool :=
  existsb (Ascii.eqb c) (legal_codes position).

(** A mnemonic is malformed when it has neither three nor four characters, or
    when one of its characters is not a code of its position. *)
Definition malformed (s : string) : Prop :=
  (String.length s <> 3%nat /\ String.length s <> 4%nat) \/
  exists i c, String.get i s = Some c /\ recognized i c = false.

(** ** A fitted engine *)

Module Example.
Import TfidfModelSpec.

(** The corpus of the specification's scenario: two documents, term 2 listed
    twice in the second. *)
Definition corpus : value :=
  VList [VList [VTuple [VInt 0; VInt 1]; VTuple [VInt 1; VInt 1]];
         VList [VTuple [VInt 1; VInt 1]; VTuple [VInt 2; VInt 1];
                VTuple [VInt 2; VInt 1]]].

Definition document : value :=
  VList [VTuple [VInt 0; VInt 1]; VTuple [VInt 1; VInt 1]].

Definition other_corpus : value :=
  VList [VList [VTuple [VInt 5; VInt 3]]].

(** A new transformer with the defaults, and the same after [fit(corpus)]. *)
Definition unfitted : TfIdfTransformer := init default_kwargs.

Definition fitted : TfIdfTransformer := snd (fit corpus VNone unfitted).

(** A transformer fitted on another corpus before. *)
Definition fitted_before : TfIdfTransformer :=
  snd (fit other_corpus VNone unfitted).

(** [document] weighed by the model of [fitted]: term 1 is in every document
    of the corpus and weighs 0, term 0 is left with the unit length. *)
Definition weighted_document : value :=
  VList [VTuple [VInt 0; VFloat 1%float]].

(** The model [fit(corpus)] builds under the default scheme nfc. *)
Definition fitted_model : Model :=
  {| scheme := mkScheme RawTf Idf Cosine RawTf "nfc";
     statistics :=
       {| total_docs := 2;
          doc_freq := {[ 0 := 1; 1 := 2; 2 := 1 ]};
          idf_weights :=
            Some {[ 0 := 0x1.62e42fefa39efp-1%float; 1 := 0%float;
                    2 := 0x1.62e42fefa39efp-1%float ]};
          fitted_pivot := None |};
     model_slope := 0.65%float |}.

(** The second document of [corpus], and what the model of [fitted] makes of
    it: term 1 weighs 0, and the two entries of term 2 share the unit
    length. *)
Definition second_document : value :=
  VList [VTuple [VInt 1; VInt 1]; VTuple [VInt 2; VInt 1];
         VTuple [VInt 2; VInt 1]].

Definition weighted_second_document : value :=
  VList [VTuple [VInt 2; VFloat 0x1.6a09e667f3bccp-1%float];
         VTuple [VInt 2; VFloat 0x1.6a09e667f3bccp-1%float]].

(** A corpus whose second element is [None], which is no document. *)
Definition broken_corpus : value :=
  VList [document; VNone; second_document].

(** Calls on a fitted transformer: an input without a first element, a
    corpus that is no sequence, and another corpus. *)
Definition calls : list call :=
  [CallTransform (VList []); CallFit VNone VNone; CallFit other_corpus VNone].

(** A transformer whose mnemonic is the specification's invalid one. *)
Definition bad_scheme : TfIdfTransformer :=
  init (mkKwargs None None (Callable "gensim.utils.identity")
          (Callable "gensim.models.tfidfmodel.df2idf") (NormalizeBool true)
          "xyz9" None 0.65%float).

End Example.

(** * Properties of the wrapper, for any model class *)

Section WrapperFacts.
Context `{Impl : TfidfModelImpl}.

(** ** The two methods, unfolded *)

Lemma fit_run (X y : value) (e : TfIdfTransformer) :
  fit X y e =
    match TfidfModel X (fit_kwargs e) with
    | Ok m => (Ok (store_gensim_model (Some m) e), store_gensim_model (Some m) e)
    | Raise x => (Raise x, e)
    end.
Proof.
  unfold fit, bind, get_self, eval, set_gensim_model.
  destruct (TfidfModel X (fit_kwargs e)); reflexivity.
Qed.

Lemma transform_run_unfitted (docs : value) (e : TfIdfTransformer) :
  gensim_model e = None -> transform docs e = (Raise NotFittedError, e).
Proof.
  intros Hnone. unfold transform, bind, get_gensim_model, raise.
  rewrite Hnone. reflexivity.
Qed.

Lemma transform_run_fitted (docs : value) (e : TfIdfTransformer) (m : model) :
  gensim_model e = Some m ->
  transform docs e =
    (rbind (subscript0 docs) (fun first =>
     rbind (iterate (if isinstance_tuple first then VList [docs] else docs))
       (fun items => rmap VList (comprehension (model_getitem m) items))),
     e).
Proof.
  intros Hsome. unfold transform, bind, get_gensim_model, eval, ret.
  rewrite Hsome.
  destruct (subscript0 docs) as [first|x]; simpl; [|reflexivity].
  destruct (iterate _) as [items|x]; simpl; [|reflexivity].
  destruct (comprehension _ items); reflexivity.
Qed.

Lemma is_fitted_model (e : TfIdfTransformer) :
  is_fitted e = true -> exists m, gensim_model e = Some m.
Proof.
  unfold is_fitted. destruct (gensim_model e) as [m|]; [eauto | discriminate].
Qed.

(** Neither method touches an attribute when it raises, and [transform]
    touches none at all. *)
Lemma transform_keeps_self (docs : value) (e : TfIdfTransformer) :
  snd (transform docs e) = e.
Proof.
  destruct (gensim_model e) as [m|] eqn:Hm.
  - rewrite (transform_run_fitted docs e m Hm). reflexivity.
  - rewrite (transform_run_unfitted docs e Hm). reflexivity.
Qed.

Lemma fit_raise_keeps_self (X y : value) (e e' : TfIdfTransformer) (x : exn) :
  fit X y e = (Raise x, e') -> e' = e.
Proof.
  rewrite fit_run. destruct (TfidfModel X (fit_kwargs e)); congruence.
Qed.

Lemma fit_kwargs_store (gm : option model) (e : TfIdfTransformer) :
  fit_kwargs (store_gensim_model gm e) = fit_kwargs e.
Proof. reflexivity. Qed.

Lemma store_same_kwargs (gm : option model) (e1 e2 : TfIdfTransformer) :
  fit_kwargs e1 = fit_kwargs e2 ->
  store_gensim_model gm e1 = store_gensim_model gm e2.
Proof.
  destruct e1, e2. unfold fit_kwargs, store_gensim_model. simpl.
  intros H. injection H as -> -> -> -> -> -> -> ->. reflexivity.
Qed.

(** A comprehension that returns has one result per element, in order. *)
Lemma comprehension_Forall2 {A B} (f : A -> result B) (l : list A) (ys : list B) :
  comprehension f l = Ok ys -> Forall2 (fun a b => f a = Ok b) l ys.
Proof.
  revert ys. induction l as [|a l IH]; simpl; intros ys H.
  - injection H as <-. constructor.
  - destruct (f a) as [b|] eqn:Hfa; simpl in H; [|discriminate].
    destruct (comprehension f l) as [bs|]; simpl in H; [|discriminate].
    injection H as <-. constructor; auto.
Qed.

Lemma comprehension_singleton {A B} (f : A -> result B) (a : A) :
  comprehension f [a] = rmap (fun b => [b]) (f a).
Proof. simpl. unfold rmap. destruct (f a); reflexivity. Qed.

(** A comprehension either returns one result for each element, in order,
    or raises what [f] raises on the first element it does not return for. *)
Lemma comprehension_outcome {A B} (f : A -> result B) (l : list A) :
  (exists ys, comprehension f l = Ok ys /\
              Forall2 (fun a b => f a = Ok b) l ys) \/
  (exists before a rest x,
     l = before ++ a :: rest /\
     Forall (fun a' => exists b, f a' = Ok b) before /\
     f a = Raise x /\ comprehension f l = Raise x).
Proof.
  induction l as [|a l IH]; simpl.
  - left. exists []. split; [reflexivity|constructor].
  - destruct (f a) as [b|x] eqn:Hfa; simpl.
    + destruct IH as [(ys & -> & Hall)|(before & a' & rest & x & -> & Hok & Hx & ->)].
      * left. exists (b :: ys). split; [reflexivity|]. constructor; assumption.
      * right. exists (a :: before), a', rest, x.
        repeat split; eauto.
    + right. exists [], a, l, x. repeat split; auto.
Qed.

(** ** The claims about the wrapper *)

(** A transformer that was only constructed holds no model: [transform]
    raises [NotFittedError] on it. *)
Theorem transform_after_init_raises (docs : value) (kw : kwargs) :
  transform docs (init kw) = (Raise NotFittedError, init kw).
Proof. apply transform_run_unfitted. reflexivity. Qed.

(** A call of [fit] in which the constructor raises assigns nothing: the
    exception of the constructor is the outcome, and the engine is as it was
    before the call, fitted or not. *)
Theorem fit_raise_nothing_assigned (X y : value) (e : TfIdfTransformer)
    (x : exn) :
  TfidfModel X (fit_kwargs e) = Raise x ->
  fit X y e = (Raise x, e).
Proof. intros H. rewrite fit_run, H. reflexivity. Qed.

(** C1. While the engine holds no model, [transform] raises [NotFittedError]
    for every input, returns no vector, and leaves the engine as it was. *)
Theorem transform_unfitted_raises (docs : value) (e : TfIdfTransformer) :
  gensim_model e = None ->
  transform docs e = (Raise NotFittedError, e).
Proof. apply transform_run_unfitted. Qed.

(** C3. On a fitted engine and an input with a first element: when that
    element is a tuple, the input is one document, the model weighs it as a
    whole, and the output is the list of that one weighted document;
    otherwise the input is a corpus, the model weighs each of its elements
    as a document, and the output is the list of the weighted documents, one
    for each element and in order, unless the model raises on an element,
    which ends the call with the exception of the first such element. *)
Theorem transform_single_or_corpus (docs first : value) (e : TfIdfTransformer)
    (m : model) :
  gensim_model e = Some m ->
  subscript0 docs = Ok first ->
  if isinstance_tuple first
  then match model_getitem m docs with
       | Ok w => transform docs e = (Ok (VList [w]), e)
       | Raise x => transform docs e = (Raise x, e)
       end
  else exists ds,
      (docs = VList ds \/ docs = VTuple ds) /\
      ((exists ws,
          transform docs e = (Ok (VList ws), e) /\
          Forall2 (fun d w => model_getitem m d = Ok w) ds ws) \/
       (exists before d rest x,
          ds = before ++ d :: rest /\
          Forall (fun d' => exists w, model_getitem m d' = Ok w) before /\
          model_getitem m d = Raise x /\
          transform docs e = (Raise x, e))).
Proof.
  intros Hm Hfirst. rewrite (transform_run_fitted docs e m Hm), Hfirst. simpl.
  destruct (isinstance_tuple first).
  - simpl iterate. cbv beta iota delta [rbind]. rewrite comprehension_singleton.
    unfold rmap, rbind. destruct (model_getitem m docs); reflexivity.
  - assert (exists ds, (docs = VList ds \/ docs = VTuple ds) /\ iterate docs = Ok ds)
      as (ds & Hdocs & Hds).
    { destruct docs as [| | |ds|ds]; try discriminate; exists ds; auto. }
    exists ds. split; [exact Hdocs|]. rewrite Hds. simpl.
    destruct (comprehension_outcome (model_getitem m) ds)
      as [(ws & -> & Hall)|(before & d & rest & x & Heq & Hok & Hx & ->)].
    + left. exists ws. split; [reflexivity|exact Hall].
    + right. exists before, d, rest, x. repeat split; assumption.
Qed.

(** C2, as the code has it. On a fitted engine the output of [transform] is
    always a corpus: for a corpus, the list of the weighted documents, one
    per document and in order; for a single document, the list of one
    weighted document. *)
Theorem transform_returns_corpus (docs out : value) (e e' : TfIdfTransformer)
    (m : model) :
  gensim_model e = Some m ->
  transform docs e = (Ok out, e') ->
  exists first ws,
    subscript0 docs = Ok first /\ out = VList ws /\
    if isinstance_tuple first
    then exists w, model_getitem m docs = Ok w /\ ws = [w]
    else exists ds, iterate docs = Ok ds /\
         Forall2 (fun d w => model_getitem m d = Ok w) ds ws.
Proof.
  intros Hm Hrun. rewrite (transform_run_fitted docs e m Hm) in Hrun.
  destruct (subscript0 docs) as [first|] eqn:Hfirst; simpl in Hrun; [|discriminate].
  destruct (isinstance_tuple first) eqn:Htuple.
  - simpl in Hrun. destruct (model_getitem m docs) as [w|] eqn:Hw;
      simpl in Hrun; [|discriminate].
    exists first, [w]. rewrite Htuple. split; [reflexivity|].
    split; [congruence|]. exists w. auto.
  - destruct (iterate docs) as [ds|] eqn:Hds; simpl in Hrun; [|discriminate].
    destruct (comprehension (model_getitem m) ds) as [ws|] eqn:Hws;
      simpl in Hrun; [|discriminate].
    exists first, ws. rewrite Htuple. split; [reflexivity|].
    split; [congruence|]. exists ds. split; [reflexivity|].
    apply comprehension_Forall2, Hws.
Qed.

(** C4. A call of [fit] that returns leaves the engine fitted, holding the
    model the constructor built from the corpus and the stored arguments.
    It may be called on an engine that is fitted already: from any two
    engines with the same arguments, whatever model either of them holds, it
    returns the same engine. *)
Theorem fit_replaces_model (X y : value) (e1 e2 r e1' : TfIdfTransformer) :
  fit_kwargs e1 = fit_kwargs e2 ->
  fit X y e1 = (Ok r, e1') ->
  is_fitted e1' = true /\ r = e1' /\
  (exists m, TfidfModel X (fit_kwargs e1) = Ok m /\ gensim_model e1' = Some m) /\
  fit X y e2 = (Ok r, e1').
Proof.
  intros Hkw Hfit. rewrite fit_run in Hfit. rewrite fit_run, <- Hkw.
  destruct (TfidfModel X (fit_kwargs e1)) as [m|]; [|discriminate].
  injection Hfit as <- <-.
  rewrite (store_same_kwargs (Some m) e2 e1 (eq_sym Hkw)).
  repeat split; eauto.
Qed.

(** C5. [transform] leaves the engine as it was, so a second call of it on
    the same document returns what the first returned; and what it returns
    depends on the engine through the held model alone. *)
Theorem transform_deterministic (docs : value) (e : TfIdfTransformer) :
  snd (transform docs e) = e /\
  transform docs (snd (transform docs e)) = transform docs e /\
  forall e' : TfIdfTransformer,
    gensim_model e' = gensim_model e ->
    fst (transform docs e') = fst (transform docs e).
Proof.
  split; [apply transform_keeps_self|].
  split; [rewrite transform_keeps_self; reflexivity|].
  intros e' Heq. destruct (gensim_model e) as [m|] eqn:Hm.
  - rewrite (transform_run_fitted docs e m Hm),
      (transform_run_fitted docs e' m Heq). reflexivity.
  - rewrite (transform_run_unfitted docs e Hm),
      (transform_run_unfitted docs e' Heq). reflexivity.
Qed.

(** C8. On a fitted engine an empty sequence, list or tuple, has no first
    element: [transform] raises [IndexError], whatever the model class does
    with a document, and returns no list. *)
Theorem transform_empty_raises (docs : value) (e : TfIdfTransformer) :
  is_fitted e = true ->
  docs = VList [] \/ docs = VTuple [] ->
  transform docs e = (Raise IndexError, e).
Proof.
  intros Hfit Hdocs. destruct (is_fitted_model e Hfit) as [m Hm].
  rewrite (transform_run_fitted docs e m Hm).
  destruct Hdocs as [-> | ->]; reflexivity.
Qed.

(** C9. [fit] does not read [y]: two calls that differ in it alone end in
    the same outcome and the same engine, and every later [transform]
    returns the same. *)
Theorem fit_ignores_y (X y1 y2 : value) (e : TfIdfTransformer) :
  fit X y1 e = fit X y2 e /\
  forall docs : value,
    transform docs (snd (fit X y1 e)) = transform docs (snd (fit X y2 e)).
Proof. rewrite !fit_run. split; reflexivity. Qed.

(** C10. [fit] writes [gensim_model] and nothing else: the eight stored
    arguments are after the call what they were before it. *)
Theorem fit_frame (X y : value) (e : TfIdfTransformer) :
  let e' := snd (fit X y e) in
  e' = store_gensim_model (gensim_model e') e /\
  id2word e' = id2word e /\ dictionary e' = dictionary e /\
  wlocal e' = wlocal e /\ wglobal e' = wglobal e /\
  normalize e' = normalize e /\ smartirs e' = smartirs e /\
  pivot e' = pivot e /\ slope e' = slope e.
Proof.
  simpl. rewrite fit_run.
  destruct (TfidfModel X (fit_kwargs e)); destruct e; simpl; repeat split.
Qed.

End WrapperFacts.

(** * Properties of the wrapper over the modelled class *)

Import TfidfModelSpec.

(** ** The scheme resolver *)

Lemma length_list_ascii_of_string (s : string) :
  length (list_ascii_of_string s) = String.length s.
Proof. induction s as [|c s IH]; simpl; congruence. Qed.

Lemma get_list_ascii_of_string (s : string) (i : nat) :
  String.get i s = nth_error (list_ascii_of_string s) i.
Proof.
  revert i. induction s as [|c s IH]; intros [|i]; simpl; auto.
Qed.

Ltac by_letter c :=
  destruct c as [[] [] [] [] [] [] [] []]; vm_compute;
  solve [ reflexivity | discriminate | eauto ].

Lemma local_of_letter_unrecognized (c : ascii) :
  recognized 0 c = false -> local_of_letter c = None.
Proof. by_letter c. Qed.

Lemma global_of_letter_unrecognized (c : ascii) :
  recognized 1 c = false -> global_of_letter c = None.
Proof. by_letter c. Qed.

Lemma norm_of_letter_unrecognized (c : ascii) :
  recognized 2 c = false -> norm_of_letter c = None.
Proof. by_letter c. Qed.

Lemma override_letter_unrecognized (c : ascii) :
  recognized 3 c = false -> local_of_letter c = None.
Proof. by_letter c. Qed.

Lemma local_of_letter_recognized (c : ascii) :
  recognized 0 c = true -> exists l, local_of_letter c = Some l.
Proof. by_letter c. Qed.

Lemma global_of_letter_recognized (c : ascii) :
  recognized 1 c = true -> exists g, global_of_letter c = Some g.
Proof. by_letter c. Qed.

Lemma norm_of_letter_recognized (c : ascii) :
  recognized 2 c = true -> exists n, norm_of_letter c = Some n.
Proof. by_letter c. Qed.

Lemma override_letter_recognized (c : ascii) :
  recognized 3 c = true -> exists l, local_of_letter c = Some l.
Proof. by_letter c. Qed.

(** A malformed mnemonic does not resolve. *)
Lemma resolve_malformed (s : string) :
  malformed s -> resolve s = Raise InvalidSchemeError.
Proof.
  unfold malformed, resolve.
  rewrite <- length_list_ascii_of_string.
  setoid_rewrite get_list_ascii_of_string.
  destruct (list_ascii_of_string s) as [|c1 [|c2 [|c3 [|c4 [|c5 l]]]]];
    try reflexivity; simpl.
  - intros [[H _]|(i & c & Hget & Hrec)]; [congruence|].
    destruct i as [|[|[|i]]]; simpl in Hget.
    + injection Hget as ->.
      rewrite (local_of_letter_unrecognized c Hrec). reflexivity.
    + injection Hget as ->.
      rewrite (global_of_letter_unrecognized c Hrec).
      destruct (local_of_letter c1); reflexivity.
    + injection Hget as ->.
      rewrite (norm_of_letter_unrecognized c Hrec).
      destruct (local_of_letter c1), (global_of_letter c2); reflexivity.
    + destruct i; discriminate.
  - intros [[_ H]|(i & c & Hget & Hrec)]; [congruence|].
    destruct i as [|[|[|[|i]]]]; simpl in Hget.
    + injection Hget as ->.
      rewrite (local_of_letter_unrecognized c Hrec). reflexivity.
    + injection Hget as ->.
      rewrite (global_of_letter_unrecognized c Hrec).
      destruct (local_of_letter c1); reflexivity.
    + injection Hget as ->.
      rewrite (norm_of_letter_unrecognized c Hrec).
      destruct (local_of_letter c1), (global_of_letter c2); reflexivity.
    + injection Hget as ->.
      rewrite (override_letter_unrecognized c Hrec).
      destruct (local_of_letter c1), (global_of_letter c2), (norm_of_letter c3);
        reflexivity.
    + destruct i; discriminate.
Qed.

(** The other mnemonics do: the error is raised for the malformed ones
    only. *)
Lemma resolve_well_formed (s : string) :
  String.length s = 3%nat \/ String.length s = 4%nat ->
  (forall i c, String.get i s = Some c -> recognized i c = true) ->
  exists sch, resolve s = Ok sch /\ mnemonic sch = s.
Proof.
  unfold resolve.
  rewrite <- length_list_ascii_of_string.
  setoid_rewrite get_list_ascii_of_string.
  destruct (list_ascii_of_string s) as [|c1 [|c2 [|c3 [|c4 [|c5 l]]]]];
    simpl; intros [Hlen|Hlen] Hall; try discriminate.
  - destruct (local_of_letter_recognized c1 (Hall 0%nat c1 eq_refl)) as [l1 ->].
    destruct (global_of_letter_recognized c2 (Hall 1%nat c2 eq_refl)) as [g ->].
    destruct (norm_of_letter_recognized c3 (Hall 2%nat c3 eq_refl)) as [n ->].
    eauto.
  - destruct (local_of_letter_recognized c1 (Hall 0%nat c1 eq_refl)) as [l1 ->].
    destruct (global_of_letter_recognized c2 (Hall 1%nat c2 eq_refl)) as [g ->].
    destruct (norm_of_letter_recognized c3 (Hall 2%nat c3 eq_refl)) as [n ->].
    destruct (override_letter_recognized c4 (Hall 3%nat c4 eq_refl)) as [o ->].
    eauto.
Qed.

(** C6. When the stored mnemonic is malformed, that is, has neither three
    nor four characters or holds a character that is not a code of its
    position, [fit] raises [InvalidSchemeError] for every corpus, and the
    engine stays as it was. *)
Theorem fit_malformed_scheme_raises (X y : value) (e : TfIdfTransformer) :
  malformed (smartirs e) ->
  fit X y e = (Raise InvalidSchemeError, e).
Proof.
  intros Hbad. rewrite fit_run. simpl. unfold new. simpl.
  rewrite (resolve_malformed _ Hbad). reflexivity.
Qed.

(** C6 at the specification's mnemonic xyz9, whose second character y is
    no global code. *)
Lemma fit_malformed_scheme_raises_witness :
  fit Example.corpus VNone Example.bad_scheme
  = (Raise InvalidSchemeError, Example.bad_scheme).
Proof.
  apply (fit_malformed_scheme_raises Example.corpus VNone Example.bad_scheme).
  right. exists 1%nat, "y"%char. split; reflexivity.
Defined.

(** ** Documents without terms *)

Lemma weigh_empty (m : Model) : weigh m [] = [].
Proof.
  unfold weigh. simpl.
  destruct (idf_weights (statistics m)); simpl;
    destruct (norm_fn (scheme m)); simpl;
    try destruct (fitted_pivot (statistics m)); simpl;
    try destruct (PrimFloat.eqb _ _); reflexivity.
Qed.

(** The modelled class weighs the empty document to the empty vector. *)
Lemma getitem_empty (m : Model) : getitem m (VList []) = Ok (VList []).
Proof. unfold getitem. simpl. rewrite weigh_empty. reflexivity. Qed.

(** Inside a corpus the empty document is weighed to the empty vector. *)
Lemma transform_corpus_of_empty (e : TfIdfTransformer) (m : model) :
  gensim_model e = Some m ->
  transform (VList [VList []]) e = (Ok (VList [VList []]), e).
Proof.
  intros Hm. rewrite (transform_run_fitted _ e m Hm). simpl.
  rewrite weigh_empty. reflexivity.
Qed.

(** C7. The engine fitted on the example corpus: its model weighs the empty
    document to the empty vector, and yet [transform] of the empty document
    raises [IndexError]; only inside a corpus is the empty document
    weighed. *)
Theorem transform_empty_document_raises :
  gensim_model Example.fitted = Some Example.fitted_model /\
  model_getitem Example.fitted_model (VList []) = Ok (VList []) /\
  transform (VList []) Example.fitted = (Raise IndexError, Example.fitted) /\
  transform (VList [VList []]) Example.fitted
  = (Ok (VList [VList []]), Example.fitted).
Proof. repeat (split; [reflexivity|]). reflexivity. Qed.

(** ** The example engine *)

(** C1 on a transformer that was constructed and never fitted. *)
Lemma transform_unfitted_raises_witness :
  transform Example.corpus Example.unfitted
  = (Raise NotFittedError, Example.unfitted).
Proof.
  apply (transform_unfitted_raises Example.corpus Example.unfitted).
  reflexivity.
Defined.

(** C3 on the fitted example: a single document, whose first element is the
    tuple (0, 1), and a corpus, whose first element is a list. *)
Lemma transform_single_or_corpus_witness :
  transform Example.document Example.fitted
  = (Ok (VList [Example.weighted_document]), Example.fitted) /\
  exists ds,
    (Example.corpus = VList ds \/ Example.corpus = VTuple ds) /\
    ((exists ws,
        transform Example.corpus Example.fitted
        = (Ok (VList ws), Example.fitted) /\
        Forall2 (fun d w => model_getitem Example.fitted_model d = Ok w) ds ws) \/
     (exists before d rest x,
        ds = before ++ d :: rest /\
        Forall (fun d' => exists w, model_getitem Example.fitted_model d' = Ok w)
          before /\
        model_getitem Example.fitted_model d = Raise x /\
        transform Example.corpus Example.fitted = (Raise x, Example.fitted))).
Proof.
  split.
  - exact (transform_single_or_corpus Example.document
             (VTuple [VInt 0; VInt 1]) Example.fitted Example.fitted_model
             eq_refl eq_refl).
  - exact (transform_single_or_corpus Example.corpus
             Example.document Example.fitted Example.fitted_model
             eq_refl eq_refl).
Defined.

(** C2, as stated, fails. The input is a single document; the fitted model
    weighs it to [weighted_document]; [transform] returns a list holding that
    document, which is a corpus and not the weighted document. *)
Lemma transform_single_document_not_same_shape :
  gensim_model Example.fitted = Some Example.fitted_model /\
  shape_of Example.document = Ok SingleDocument /\
  model_getitem Example.fitted_model Example.document
  = Ok Example.weighted_document /\
  transform Example.document Example.fitted
  = (Ok (VList [Example.weighted_document]), Example.fitted) /\
  shape_of (VList [Example.weighted_document]) = Ok Corpus /\
  VList [Example.weighted_document] <> Example.weighted_document.
Proof.
  repeat (split; [reflexivity|]). discriminate.
Qed.

(** C2 as amended, on the single document of the example. *)
Lemma transform_returns_corpus_witness :
  exists first ws,
    subscript0 Example.document = Ok first /\
    VList [Example.weighted_document] = VList ws /\
    if isinstance_tuple first
    then exists w,
        model_getitem Example.fitted_model Example.document = Ok w /\ ws = [w]
    else exists ds, iterate Example.document = Ok ds /\
         Forall2 (fun d w => model_getitem Example.fitted_model d = Ok w) ds ws.
Proof.
  apply (transform_returns_corpus Example.document
           (VList [Example.weighted_document]) Example.fitted Example.fitted
           Example.fitted_model).
  - reflexivity.
  - reflexivity.
Defined.

(** C4 on the example: fitting the new transformer on [corpus] and
    re-fitting the one fitted on [other_corpus] before end in the same
    engine. *)
Lemma fit_replaces_model_witness :
  is_fitted Example.fitted = true /\ Example.fitted = Example.fitted /\
  (exists m, TfidfModel Example.corpus (fit_kwargs Example.unfitted) = Ok m /\
             gensim_model Example.fitted = Some m) /\
  fit Example.corpus VNone Example.fitted_before
  = (Ok Example.fitted, Example.fitted).
Proof.
  apply (fit_replaces_model Example.corpus VNone Example.unfitted
           Example.fitted_before Example.fitted Example.fitted).
  - reflexivity.
  - reflexivity.
Defined.

(** C8 on the fitted example and the empty list. *)
Lemma transform_empty_raises_witness :
  transform (VList []) Example.fitted = (Raise IndexError, Example.fitted).
Proof.
  apply (transform_empty_raises (VList []) Example.fitted).
  - reflexivity.
  - left. reflexivity.
Defined.

(** The engine fitted before holds another model than [fitted] does. *)
Lemma fitted_before_differs :
  gensim_model Example.fitted_before <> gensim_model Example.fitted.
Proof. vm_compute. discriminate. Qed.

(** The constructor of the modelled class raises on the mnemonic xyz9, and
    so [fit] leaves the transformer without a model. *)
Lemma fit_raise_nothing_assigned_witness :
  fit Example.corpus VNone Example.bad_scheme
  = (Raise InvalidSchemeError, Example.bad_scheme).
Proof.
  apply (fit_raise_nothing_assigned Example.corpus VNone Example.bad_scheme
           InvalidSchemeError).
  reflexivity.
Defined.

(** * Sequences of calls and batches, for any model class *)

Section WrapperHistories.
Context `{Impl : TfidfModelImpl}.

Lemma fit_kwargs_init (kw : kwargs) : fit_kwargs (init kw) = kw.
Proof. destruct kw. reflexivity. Qed.

Lemma after_keeps_arguments (c : call) (e : TfIdfTransformer) :
  fit_kwargs (after c e) = fit_kwargs e.
Proof.
  destruct c as [X y|docs]; simpl.
  - rewrite fit_run. destruct (TfidfModel X (fit_kwargs e)); reflexivity.
  - rewrite transform_keeps_self. reflexivity.
Qed.

Lemma after_all_keeps_arguments (cs : list call) (e : TfIdfTransformer) :
  fit_kwargs (after_all cs e) = fit_kwargs e.
Proof.
  revert e. induction cs as [|c cs IH]; intros e; [reflexivity|].
  change (after_all (c :: cs) e) with (after_all cs (after c e)).
  rewrite IH. apply after_keeps_arguments.
Qed.

Lemma after_model (c : call) (e : TfIdfTransformer) :
  gensim_model (after c e)
  = last_fitted (fit_kwargs e) [c] (gensim_model e).
Proof.
  destruct c as [X y|docs]; simpl.
  - rewrite fit_run. destruct (TfidfModel X (fit_kwargs e)); reflexivity.
  - rewrite transform_keeps_self. reflexivity.
Qed.

Lemma after_all_model (cs : list call) (e : TfIdfTransformer) :
  gensim_model (after_all cs e)
  = last_fitted (fit_kwargs e) cs (gensim_model e).
Proof.
  revert e. induction cs as [|c cs IH]; intros e; [reflexivity|].
  change (after_all (c :: cs) e) with (after_all cs (after c e)).
  rewrite IH, after_keeps_arguments, after_model. reflexivity.
Qed.

Lemma last_fitted_some (kw : kwargs) (cs : list call) (m : model) :
  exists m', last_fitted kw cs (Some m) = Some m'.
Proof.
  revert m. induction cs as [|c cs IH]; intros m; simpl; [eauto|].
  destruct c as [X y|docs]; [|apply IH].
  destruct (TfidfModel X kw); apply IH.
Qed.

(** Whatever calls were made on a transformer since it was constructed,
    returning or raising, the arguments [fit] hands to the model class are
    the ones [__init__] was given, each under its own keyword. *)
Theorem calls_keep_init_arguments (cs : list call) (kw : kwargs) :
  fit_kwargs (after_all cs (init kw)) = kw /\
  forall X y : value,
    fst (fit X y (after_all cs (init kw)))
    = rmap (fun m => store_gensim_model (Some m) (init kw)) (TfidfModel X kw).
Proof.
  pose proof (after_all_keeps_arguments cs (init kw)) as Hkw.
  rewrite fit_kwargs_init in Hkw. split; [exact Hkw|].
  intros X y. rewrite fit_run, Hkw.
  destruct (TfidfModel X kw) as [m|x]; simpl; [|reflexivity].
  f_equal. apply store_same_kwargs. rewrite Hkw, fit_kwargs_init. reflexivity.
Qed.

(** After any sequence of calls the transformer holds the model of the last
    call of [fit] whose constructor returned, built from the corpus of that
    call and the stored arguments; the calls of [transform] and the calls of
    [fit] that raised leave no trace. *)
Theorem calls_hold_last_fitted (cs : list call) (e : TfIdfTransformer) :
  gensim_model (after_all cs e)
  = last_fitted (fit_kwargs e) cs (gensim_model e).
Proof. apply after_all_model. Qed.

(** No sequence of calls takes the model away: a fitted transformer stays
    fitted, through calls of [fit] that raise as well. *)
Theorem fitted_stays_fitted (cs : list call) (e : TfIdfTransformer) :
  is_fitted e = true -> is_fitted (after_all cs e) = true.
Proof.
  intros Hfit. destruct (is_fitted_model e Hfit) as [m Hm].
  unfold is_fitted. rewrite after_all_model, Hm.
  destruct (last_fitted_some (fit_kwargs e) cs m) as [m' ->]. reflexivity.
Qed.

(** ** The comprehension of [transform] *)

Lemma comprehension_app {A B} (f : A -> result B) (l1 l2 : list A) :
  comprehension f (l1 ++ l2)
  = rbind (comprehension f l1) (fun ys1 =>
    rbind (comprehension f l2) (fun ys2 => Ok (ys1 ++ ys2))).
Proof.
  induction l1 as [|a l1 IH]; simpl.
  - destruct (comprehension f l2); reflexivity.
  - destruct (f a) as [b|]; simpl; [|reflexivity].
    rewrite IH. destruct (comprehension f l1); simpl; [|reflexivity].
    destruct (comprehension f l2); reflexivity.
Qed.

Lemma comprehension_all_ok {A B} (f : A -> result B) (l : list A) :
  Forall (fun a => exists b, f a = Ok b) l ->
  exists ys, comprehension f l = Ok ys /\ Forall2 (fun a b => f a = Ok b) l ys.
Proof.
  induction 1 as [|a l [b Hb] _ [ys [Hys Hall]]]; simpl.
  - exists []. split; [reflexivity|constructor].
  - exists (b :: ys). rewrite Hb, Hys. split; [reflexivity|].
    constructor; assumption.
Qed.

Lemma comprehension_first_failure {A B} (f : A -> result B)
    (before rest : list A) (a : A) (x : exn) :
  Forall (fun a => exists b, f a = Ok b) before ->
  f a = Raise x ->
  comprehension f (before ++ a :: rest) = Raise x.
Proof.
  intros Hok Hfail. rewrite comprehension_app.
  destruct (comprehension_all_ok f before Hok) as [ys [-> _]]. simpl.
  rewrite Hfail. reflexivity.
Qed.

Lemma transform_run_corpus (docs first : value) (ds : list value)
    (e : TfIdfTransformer) (m : model) :
  gensim_model e = Some m ->
  subscript0 docs = Ok first ->
  isinstance_tuple first = false ->
  iterate docs = Ok ds ->
  transform docs e = (rmap VList (comprehension (model_getitem m) ds), e).
Proof.
  intros Hm Hfirst Htuple Hds.
  rewrite (transform_run_fitted docs e m Hm), Hfirst. simpl.
  rewrite Htuple, Hds. reflexivity.
Qed.

(** On a fitted transformer and a corpus, when the model weighs every
    document of the corpus, [transform] returns: its output has one weighted
    document for each document of the corpus, in the order of the corpus,
    and the transformer is as before. *)
Theorem transform_corpus_returns (docs first : value) (ds : list value)
    (e : TfIdfTransformer) (m : model) :
  gensim_model e = Some m ->
  subscript0 docs = Ok first ->
  isinstance_tuple first = false ->
  iterate docs = Ok ds ->
  Forall (fun d => exists w, model_getitem m d = Ok w) ds ->
  exists ws,
    transform docs e = (Ok (VList ws), e) /\
    length ws = length ds /\
    Forall2 (fun d w => model_getitem m d = Ok w) ds ws.
Proof.
  intros Hm Hfirst Htuple Hds Hall.
  destruct (comprehension_all_ok _ ds Hall) as [ws [Hws HF]].
  exists ws. rewrite (transform_run_corpus docs first ds e m Hm Hfirst Htuple Hds), Hws.
  split; [reflexivity|]. split; [|exact HF].
  symmetry. eapply Forall2_length, HF.
Qed.

(** On a fitted transformer and a corpus, the first document the model
    raises on ends the call: [transform] raises that exception, returns
    nothing of the documents weighed before it, and does not look at the
    documents after it. *)
Theorem transform_first_failure (docs first d : value)
    (before rest : list value) (x : exn) (e : TfIdfTransformer) (m : model) :
  gensim_model e = Some m ->
  subscript0 docs = Ok first ->
  isinstance_tuple first = false ->
  iterate docs = Ok (before ++ d :: rest) ->
  Forall (fun d' => exists w, model_getitem m d' = Ok w) before ->
  model_getitem m d = Raise x ->
  transform docs e = (Raise x, e).
Proof.
  intros Hm Hfirst Htuple Hds Hbefore Hd.
  rewrite (transform_run_corpus docs first _ e m Hm Hfirst Htuple Hds).
  rewrite (comprehension_first_failure _ before rest d x Hbefore Hd).
  reflexivity.
Qed.

(** The documents of a corpus are weighed one by one: when [transform]
    returns for two corpora, it returns for the two in one list the outputs
    of the two, one after the other. *)
Theorem transform_batches (ds1 ds2 ws1 ws2 : list value)
    (e e1 e2 : TfIdfTransformer) :
  shape_of (VList ds1) = Ok Corpus ->
  shape_of (VList ds2) = Ok Corpus ->
  transform (VList ds1) e = (Ok (VList ws1), e1) ->
  transform (VList ds2) e = (Ok (VList ws2), e2) ->
  transform (VList (ds1 ++ ds2)) e = (Ok (VList (ws1 ++ ws2)), e).
Proof.
  intros Hs1 Hs2 H1 H2.
  destruct (gensim_model e) as [m|] eqn:Hm;
    [|rewrite (transform_run_unfitted _ e Hm) in H1; discriminate].
  destruct ds1 as [|a ds1]; [discriminate|].
  destruct ds2 as [|b ds2]; [discriminate|].
  unfold shape_of in Hs1, Hs2. simpl in Hs1, Hs2.
  destruct (isinstance_tuple a) eqn:Ha; [discriminate|].
  destruct (isinstance_tuple b) eqn:Hb; [discriminate|].
  rewrite (transform_run_corpus (VList (a :: ds1)) a (a :: ds1) e m Hm
             eq_refl Ha eq_refl) in H1.
  rewrite (transform_run_corpus (VList (b :: ds2)) b (b :: ds2) e m Hm
             eq_refl Hb eq_refl) in H2.
  rewrite (transform_run_corpus (VList ((a :: ds1) ++ b :: ds2)) a
             ((a :: ds1) ++ b :: ds2) e m Hm eq_refl Ha eq_refl).
  rewrite comprehension_app.
  destruct (comprehension (model_getitem m) (a :: ds1)) as [ys1|];
    [|discriminate].
  destruct (comprehension (model_getitem m) (b :: ds2)) as [ys2|];
    [|discriminate].
  simpl in H1, H2. injection H1 as <- _. injection H2 as <- _. reflexivity.
Qed.


End WrapperHistories.

(** ** The example engine, continued *)

(** [fitted_stays_fitted] on the fitted example: [transform] raises on the
    empty input, the first [fit] raises on [None], the second returns. *)
Lemma fitted_stays_fitted_witness :
  is_fitted (after_all Example.calls Example.fitted) = true.
Proof.
  apply (fitted_stays_fitted Example.calls Example.fitted). reflexivity.
Defined.

(** [transform_corpus_returns] on the corpus the example was fitted on. *)
Lemma transform_corpus_returns_witness :
  exists ws,
    transform Example.corpus Example.fitted = (Ok (VList ws), Example.fitted) /\
    length ws = length [Example.document; Example.second_document] /\
    Forall2 (fun d w => model_getitem Example.fitted_model d = Ok w)
      [Example.document; Example.second_document] ws.
Proof.
  apply (transform_corpus_returns Example.corpus Example.document
           [Example.document; Example.second_document]
           Example.fitted Example.fitted_model); try reflexivity.
  repeat constructor.
  - exists Example.weighted_document. reflexivity.
  - exists Example.weighted_second_document. reflexivity.
Defined.

(** [transform_first_failure] on the corpus with [None] in the second place:
    the model weighs the first document and raises [TypeError] on [None]. *)
Lemma transform_first_failure_witness :
  transform Example.broken_corpus Example.fitted
  = (Raise TypeError, Example.fitted).
Proof.
  apply (transform_first_failure Example.broken_corpus Example.document VNone
           [Example.document] [Example.second_document] TypeError
           Example.fitted Example.fitted_model); try reflexivity.
  repeat constructor. exists Example.weighted_document. reflexivity.
Defined.

(** [transform_batches] on the two documents of the example corpus, each
    handed over as a corpus of its own. *)
Lemma transform_batches_witness :
  transform (VList ([Example.document] ++ [Example.second_document]))
    Example.fitted
  = (Ok (VList ([Example.weighted_document]
                ++ [Example.weighted_second_document])), Example.fitted).
Proof.
  apply (transform_batches [Example.document] [Example.second_document]
           [Example.weighted_document] [Example.weighted_second_document]
           Example.fitted Example.fitted Example.fitted); reflexivity.
Defined.

